(** * RChain node client ([node-client/RChain.py])

    A shallow embedding of the command dispatcher [main] and of the
    tornado request handler [RNodeUI], with the effects the program has:
    gRPC calls on the REPL and Diagnostics stubs, lines printed to
    [stdout], the web server's listening socket and run loop, and the
    handler's write buffer. *)

From Stdlib Require Import String Ascii List ZArith Lia Bool DecimalString.
From ExtLib Require Import Structures.Monad Structures.MonadExc.
Import ListNotations.
Import MonadNotation.
Local Open Scope string_scope.
Local Open Scope monad_scope.

(** ** Python built-ins used by the program *)

Module Py.

(** The line feed and the double quote, which string literals of this
    file do not write directly. *)
Definition LF : string := String (ascii_of_nat 10) EmptyString.
Definition DQ : string := String (ascii_of_nat 34) EmptyString.

(** [x in l] on a list of strings. *)
Definition contains (x : string) (l : list string) : bool :=
  existsb (String.eqb x) l.

(** [l[i]]: a negative index counts from the end; [None] stands for
    [IndexError]. *)
Definition getitem {A : Type} (l : list A) (i : Z) : option A :=
  let n := Z.of_nat (List.length l) in
  let j := (if i <? 0 then i + n else i)%Z in
  if (j <? 0)%Z then None else nth_error l (Z.to_nat j).

(** [str(n)] for an integer, as [%s] formats it. *)
Definition str (n : Z) : string := NilZero.string_of_int (Z.to_int n).

(** [s.replace(old, new)]: occurrences of [old] are found left to right
    and do not overlap.  [skip] counts the characters of a match that
    are still to be dropped. *)
Fixpoint replace_from (old new : string) (skip : nat) (s : string) : string :=
  match s with
  | EmptyString => EmptyString
  | String c s' =>
      match skip with
      | S k => replace_from old new k s'
      | O =>
          if String.prefix old s
          then new ++ replace_from old new (String.length old - 1) s'
          else String c (replace_from old new 0 s')
      end
  end.

(** With an empty [old], Python puts [new] before every character and at
    the end. *)
Fixpoint intersperse (new s : string) : string :=
  match s with
  | EmptyString => new
  | String c s' => new ++ String c (intersperse new s')
  end.

Definition replace (old new s : string) : string :=
  match old with
  | EmptyString => intersperse new s
  | _ => replace_from old new 0 s
  end.

(** [s.split(sep)] for a non-empty separator ([None] stands for the
    [ValueError] of an empty one). *)
Fixpoint split_from (sep : string) (skip : nat) (s : string) : list string :=
  match s with
  | EmptyString => [EmptyString]
  | String c s' =>
      match skip with
      | S k => split_from sep k s'
      | O =>
          if String.prefix sep s
          then EmptyString :: split_from sep (String.length sep - 1) s'
          else match split_from sep 0 s' with
               | p :: ps => String c p :: ps
               | [] => [String c EmptyString]
               end
      end
  end.

Definition split (sep s : string) : option (list string) :=
  match sep with
  | EmptyString => None
  | _ => Some (split_from sep 0 s)
  end.

(** [sep.join(l)]. *)
Definition join (sep : string) (l : list string) : string := String.concat sep l.

End Py.

(** [%s] formats its argument through [str()]. *)
Class Str (A : Type) := str : A -> string.
#[export] Instance Str_string : Str string := fun s => s.
#[export] Instance Str_Z : Str Z := Py.str.

(** ** Messages of the node's gRPC interface ([rnode_pb2]) *)

Record CmdRequest := { line : string }.
Record EvalRequest := { fileName : string }.
Record ListPeersRequest := { }.
Record ReplResponse := { output : string }.
Record Peers (Peer : Type) := { peers : list Peer }.
Arguments peers {Peer} _.

(** ** Effects *)

(** The exceptions the program can raise; none of them is caught by the
    program itself. *)
Inductive exn : Type :=
| RpcError (details : string)
| IndexError
| ValueError
| UnboundLocalError (name : string)
| MissingArgumentError (name : string).

Inductive RpcCall : Type :=
| CallRun (req : CmdRequest)
| CallEval (req : EvalRequest)
| CallListPeers (req : ListPeersRequest).

(** What the outside world sees of a run, in order. *)
Inductive Event : Type :=
| Listen (port : Z)
| Stdout (text : string)
| LoopStart
| Rpc (call : RpcCall).

Definition Trace := list Event.

(** The text the output sink has received. *)
Fixpoint stdout_text (t : Trace) : string :=
  match t with
  | [] => EmptyString
  | Stdout s :: t' => s ++ stdout_text t'
  | _ :: t' => stdout_text t'
  end.

(** The gRPC calls attempted, in order. *)
Fixpoint rpc_calls (t : Trace) : list RpcCall :=
  match t with
  | [] => []
  | Rpc c :: t' => c :: rpc_calls t'
  | _ :: t' => rpc_calls t'
  end.

(** Number of line terminators in a text. *)
Fixpoint count_lines (s : string) : nat :=
  match s with
  | EmptyString => 0
  | String c s' => (if Ascii.eqb c (ascii_of_nat 10) then 1 else 0) + count_lines s'
  end.

(** A statement returns, raises, or never comes back (the run loop).  The
    state is kept in each case: it is the state at the point where the
    exception left or where the program blocked. *)
Inductive Outcome (A : Type) : Type :=
| Returns (a : A)
| Raises (e : exn)
| Blocks.
Arguments Returns {A} a.
Arguments Raises {A} e.
Arguments Blocks {A}.

Definition M (St A : Type) : Type := St -> Outcome A * St.

Definition M_ret {St A} (a : A) : M St A := fun s => (Returns a, s).

Definition M_bind {St A B} (c : M St A) (k : A -> M St B) : M St B :=
  fun s =>
    match c s with
    | (Returns a, s') => k a s'
    | (Raises e, s') => (Raises e, s')
    | (Blocks, s') => (Blocks, s')
    end.

Definition M_raise {St A} (e : exn) : M St A := fun s => (Raises e, s).

Definition M_catch {St A} (c : M St A) (h : exn -> M St A) : M St A :=
  fun s =>
    match c s with
    | (Raises e, s') => h e s'
    | r => r
    end.

#[export] Instance Monad_M {St} : Monad (M St) :=
  { ret := @M_ret St; bind := @M_bind St }.

#[export] Instance MonadExc_M {St} : MonadExc exn (M St) :=
  { raise := @M_raise St; catch := @M_catch St }.

(** [for x in l: body(x)]. *)
Fixpoint for_each {St A} (l : list A) (body : A -> M St unit) : M St unit :=
  match l with
  | [] => ret tt
  | x :: l' => body x ;; for_each l' body
  end.

Definition emit (e : Event) : M Trace unit := fun t => (Returns tt, (t ++ [e])%list).

(** [print(s, file=stdout)]. *)
Definition print (s : string) : M Trace unit := emit (Stdout (s ++ Py.LF)).

(** [l[i]] as a statement. *)
Definition index {St A} (l : list A) (i : Z) : M St A :=
  match Py.getitem l i with
  | Some x => ret x
  | None => raise IndexError
  end.

(** A gRPC call: the attempt is recorded, then the node's answer (which
    may depend on everything that happened before) is returned or its
    failure raised. *)
Definition rpc {R : Type} (call : RpcCall) (answer : Trace -> exn + R) : M Trace R :=
  fun t =>
    match answer t with
    | inr r => (Returns r, (t ++ [Rpc call])%list)
    | inl e => (Raises e, (t ++ [Rpc call])%list)
    end.

(** The run loop handed to [main]: [start()] either blocks for good or,
    if the loop is stopped, returns. *)
Record IOLoopT := { start_returns : Trace -> bool }.

Definition IOLoop_current_start (IOLoop : IOLoopT) : M Trace unit :=
  fun t =>
    let t' := (t ++ [LoopStart])%list in
    if start_returns IOLoop t' then (Returns tt, t') else (Blocks, t').

(** The two stubs of [rnode_pb2_grpc]. *)
Record ReplStub := {
  Run : CmdRequest -> Trace -> exn + ReplResponse;
  Eval : EvalRequest -> Trace -> exn + ReplResponse
}.

Record DiagnosticsStub (Peer : Type) := {
  ListPeers : ListPeersRequest -> Trace -> exn + Peers Peer
}.
Arguments ListPeers {Peer} _ _ _.

(** ** tornado.web: requests and responses *)

Inductive Method := GET | POST.

(** An incoming request; [body_argument name] is what
    [get_body_argument(name)] finds in the body, if anything. *)
Record HTTPRequest := {
  method : Method;
  body_argument : string -> option string
}.

(** What the client receives: the flushed write buffer, or an error
    response when the handler raised. *)
Inductive Response : Type :=
| Rendered (body : string)
| Failed (e : exn).

(** ** The program *)

Section Client.

(** [rnode_pb2] and [rnode_pb2_grpc] are generated modules: the peer
    message type and its [str()] are taken as given. *)
Context {Peer : Type} `{Str Peer}.

(** A channel to a node, as [insecure_channel(target)] opens it: it gives
    access to the node's two services, and the stub constructors
    [rnode_pb2_grpc.ReplStub(channel)] and
    [rnode_pb2_grpc.DiagnosticsStub(channel)] bind to them. *)
Record Channel := {
  target : string;
  rnode_pb2_grpc_ReplStub : ReplStub;
  rnode_pb2_grpc_DiagnosticsStub : DiagnosticsStub Peer
}.

(** *** class RNodeUI(RequestHandler) *)

(** What [RequestHandler.__init__] sets up before it calls
    [initialize]: the request and an empty write buffer. *)
Record RequestHandler := {
  request : HTTPRequest;
  _write_buffer : list string
}.

Record RNodeUI := {
  base : RequestHandler;
  __diagCh : DiagnosticsStub Peer;
  __replCh : ReplStub;
  rholang_code : string;
  rspace_contents : string
}.

(** Handler methods run on the handler object and the outside world. *)
Definition HandlerM (A : Type) : Type := M (RNodeUI * Trace) A.

Definition self_ : HandlerM RNodeUI := fun s => (Returns (fst s), s).

Definition world {A} (c : M Trace A) : HandlerM A :=
  fun s => let (r, t') := c (snd s) in (r, (fst s, t')).

Definition set_write_buffer (self : RNodeUI) (b : list string) : RNodeUI :=
  {| base := {| request := request (base self); _write_buffer := b |};
     __diagCh := __diagCh self; __replCh := __replCh self;
     rholang_code := rholang_code self;
     rspace_contents := rspace_contents self |}.

(** [self.write(chunk)] appends to the write buffer; nothing goes to the
    network before the handler finishes. *)
Definition write (chunk : string) : HandlerM unit :=
  fun s =>
    let self := fst s in
    (Returns tt,
     (set_write_buffer self (_write_buffer (base self) ++ [chunk])%list, snd s)).

Definition get_body_argument (name : string) : HandlerM string :=
  self <- self_ ;;
  match body_argument (request (base self)) name with
  | Some v => ret v
  | None => raise (MissingArgumentError name)
  end.

Definition with_rholang_code (self : RNodeUI) (v : string) : RNodeUI :=
  {| base := base self;
     __diagCh := __diagCh self; __replCh := __replCh self;
     rholang_code := v;
     rspace_contents := rspace_contents self |}.

Definition with_rspace_contents (self : RNodeUI) (v : string) : RNodeUI :=
  {| base := base self;
     __diagCh := __diagCh self; __replCh := __replCh self;
     rholang_code := rholang_code self;
     rspace_contents := v |}.

(** [self.rholang_code = v] and [self.rspace_contents = v]. *)
Definition set_rholang_code (v : string) : HandlerM unit :=
  fun s => (Returns tt, (with_rholang_code (fst s) v, snd s)).

Definition set_rspace_contents (v : string) : HandlerM unit :=
  fun s => (Returns tt, (with_rspace_contents (fst s) v, snd s)).

Definition initialize (self : RequestHandler)
    (diagCh : DiagnosticsStub Peer) (replCh : ReplStub) : RNodeUI :=
  {| base := self;
     __diagCh := diagCh;
     __replCh := replCh;
     rholang_code := EmptyString;
     rspace_contents := EmptyString |}.

Definition markup : string :=
  Py.join Py.LF
    [ EmptyString;
      "    <!doctype html>";
      "    <html>";
      "    <head><title>rnode diagnostics</title></head>";
      "    <body>";
      "    <h1>rnode</h1>";
      "    <address>";
      "    <b>pre-release</b> for the";
      "    <a href=" ++ Py.DQ ++ "https://developer.rchain.coop/" ++ Py.DQ ++ ">RChain Developer</a>";
      "    community";
      "    </address>";
      EmptyString;
      "    <h2>Peers</h2>";
      "    <ul>";
      "    <!-- PART -->";
      "    </ul>";
      EmptyString;
      "    <h2>Rholang and RSpace</h2>";
      "    <form action=" ++ Py.DQ ++ Py.DQ ++ " method=" ++ Py.DQ ++ "post" ++ Py.DQ ++ ">";
      "    <textarea name=" ++ Py.DQ ++ "rho1" ++ Py.DQ ++ " cols=" ++ Py.DQ ++ "40" ++ Py.DQ ++ " rows=" ++ Py.DQ ++ "10" ++ Py.DQ ++ "><!-- PART --></textarea>";
      "    <br />";
      "    <input type=" ++ Py.DQ ++ "submit" ++ Py.DQ ++ " value=" ++ Py.DQ ++ "Run" ++ Py.DQ ++ " />";
      "    </form>";
      EmptyString;
      "    <pre id=" ++ Py.DQ ++ "store" ++ Py.DQ ++ ">";
      "    <!-- PART -->";
      "    </pre>";
      "    </body>";
      "    </html>";
      "    " ].
Definition PART : string := "<!-- PART -->".

Definition get : HandlerM unit :=
  match Py.split PART markup with
  | Some [mtop1; mform2; mf3; m4] =>
      write mtop1 ;;
      self <- self_ ;;
      let req := Build_ListPeersRequest in
      r <- world (rpc (CallListPeers req) (ListPeers (__diagCh self) req)) ;;
      for_each (peers r) (fun peer => write ("<li>" ++ str peer ++ "</li>")) ;;
      write mform2 ;;
      self <- self_ ;;
      write (rholang_code self) ;;
      write mf3 ;;
      self <- self_ ;;
      write (rspace_contents self) ;;
      write m4
  | _ => raise ValueError
  end.

Definition post : HandlerM unit :=
  self <- self_ ;;
  let replCh := __replCh self in
  line <- get_body_argument "rho1" ;;
  set_rholang_code line ;;
  let req := {| line := line |} in
  r <- world (rpc (CallRun req) (Run replCh req)) ;;
  set_rspace_contents (Py.replace " | " (" |" ++ Py.LF) (output r)) ;;
  get.

(** The application: one route, ["/"], to the handler class with the
    keyword arguments of its [initialize]. *)
Record Application := {
  kw_diagCh : DiagnosticsStub Peer;
  kw_replCh : ReplStub
}.

Definition make_app (port : Z)
    (diagCh : DiagnosticsStub Peer) (replCh : ReplStub)
    : M Trace (Application * string) :=
  let app := {| kw_diagCh := diagCh; kw_replCh := replCh |} in
  emit (Listen port) ;;
  let url := "http://0.0.0.0:" ++ str port in
  ret (app, url).

(** How tornado serves one request on the route: it creates a handler
    object for this request, calls [initialize] with the route's keyword
    arguments and runs the method.  When the method returns, the write
    buffer is sent; when it raises, what was buffered is discarded and an
    error response goes out instead. *)
Definition respond (r : Outcome unit * (RNodeUI * Trace)) : Outcome Response * Trace :=
  match r with
  | (Returns _, (self, t)) =>
      (Returns (Rendered (Py.join EmptyString (_write_buffer (base self)))), t)
  | (Raises e, (_, t)) => (Returns (Failed e), t)
  | (Blocks, (_, t)) => (Blocks, t)
  end.

Definition serve (app : Application) (req : HTTPRequest) : M Trace Response :=
  fun t =>
    let self :=
      initialize {| request := req; _write_buffer := [] |}
                 (kw_diagCh app) (kw_replCh app) in
    let handle := match method req with GET => get | POST => post end in
    respond (handle (self, t)).

(** Requests served one after the other. *)
Fixpoint serve_all (app : Application) (reqs : list HTTPRequest)
    : M Trace (list Response) :=
  match reqs with
  | [] => ret []
  | req :: reqs' =>
      r <- serve app req ;;
      rs <- serve_all app reqs' ;;
      ret (r :: rs)
  end.

(** *** def main *)

Definition main (argv : list string) (IOLoop : IOLoopT)
    (insecure_channel : string -> Channel)
    (web_port : Z) (host : string) (port : Z) : M Trace unit :=
  let channel := insecure_channel (str host ++ ":" ++ str port) in
  let replCh := rnode_pb2_grpc_ReplStub channel in
  let diagCh := rnode_pb2_grpc_DiagnosticsStub channel in
  (* the local variable [output] is bound in two of the three branches *)
  output <-
    (if Py.contains "-w" argv then
       au <- make_app web_port diagCh replCh ;;
       let url := snd au in
       print ("rnode web UI at " ++ str url) ;;
       IOLoop_current_start IOLoop ;;
       ret None
     else if Py.contains "-c" argv then
       line <- index argv (-1) ;;
       let req := {| line := line |} in
       r <- rpc (CallRun req) (Run replCh req) ;;
       ret (Some (output r))
     else
       fileName <- index argv 1 ;;
       let req := {| fileName := fileName |} in
       r <- rpc (CallEval req) (Eval replCh req) ;;
       ret (Some (output r))) ;;
  match output with
  | Some output => print output
  | None => raise (UnboundLocalError "output")
  end.

(** [main(argv, stdout, IOLoop, insecure_channel)] as [_script] calls
    it, with the default port numbers and host. *)
Definition main_default (argv : list string) (IOLoop : IOLoopT)
    (insecure_channel : string -> Channel) : M Trace unit :=
  main argv IOLoop insecure_channel 8888 "127.0.0.1" 50000.

End Client.

(** ** The template's four parts and the rendered page *)

Definition markup_parts : list string :=
  match Py.split PART markup with
  | Some l => l
  | None => []
  end.

Definition mtop1 : string := nth 0 markup_parts EmptyString.
Definition mform2 : string := nth 1 markup_parts EmptyString.
Definition mf3 : string := nth 2 markup_parts EmptyString.
Definition m4 : string := nth 3 markup_parts EmptyString.

(** One list item per peer. *)
Definition li {Peer : Type} `{Str Peer} (peer : Peer) : string :=
  "<li>" ++ str peer ++ "</li>".

(** The chunks [get] writes when [ListPeers] answers [ps]. *)
Definition page_chunks {Peer : Type} `{Str Peer}
    (ps : list Peer) (code contents : string) : list string :=
  (mtop1 :: map li ps ++ [mform2; code; mf3; contents; m4])%list.

(** The page as the client receives it. *)
Definition page {Peer : Type} `{Str Peer}
    (ps : list Peer) (code contents : string) : string :=
  Py.join EmptyString (page_chunks ps code contents).

(** The line [main] prints in UI mode. *)
Definition url_line (web_port : Z) : string :=
  "rnode web UI at http://0.0.0.0:" ++ Py.str web_port ++ Py.LF.

(** ** Notions used to state properties of the program *)

(** [pat in s]: the string [pat] occurs somewhere in [s]. *)
Fixpoint occurs (pat s : string) : bool :=
  String.prefix pat s
  || match s with
     | EmptyString => false
     | String _ s' => occurs pat s'
     end.

(** [s[k:]]. *)
Fixpoint drop (k : nat) (s : string) : string :=
  match k, s with
  | S k', String _ s' => drop k' s'
  | _, _ => s
  end.


(** ** A sample node, for concrete runs *)

Module Sample.

Definition out : string := "@{x}!(2) | for(...) { Nil } | for(...) { Nil }".

Definition stored : string :=
  "@{x}!(2) |" ++ Py.LF ++ "for(...) { Nil } |" ++ Py.LF ++ "for(...) { Nil }".

(** A node that answers every request. *)
Definition repl : ReplStub :=
  {| Run := fun _ _ => inr {| output := out |};
     Eval := fun req _ => inr {| output := "Storage Contents:" ++ Py.LF ++ " Nil" |} |}.

Definition diag : DiagnosticsStub string :=
  {| ListPeers := fun _ _ => inr {| peers := ["10.0.0.1:30304"; "10.0.0.2:30304"] |} |}.

(** A node that cannot be reached. *)
Definition unavailable : exn := RpcError "StatusCode.UNAVAILABLE".

Definition repl_down : ReplStub :=
  {| Run := fun _ _ => inl unavailable;
     Eval := fun _ _ => inl unavailable |}.

Definition diag_down : DiagnosticsStub string :=
  {| ListPeers := fun _ _ => inl unavailable |}.

Definition insecure_channel (t : string) : Channel :=
  {| target := t;
     rnode_pb2_grpc_ReplStub := repl;
     rnode_pb2_grpc_DiagnosticsStub := diag |}.

Definition app : Application := {| kw_diagCh := diag; kw_replCh := repl |}.
Definition app_no_diag : Application := {| kw_diagCh := diag_down; kw_replCh := repl |}.

Definition code : string := "new x in { x!(1 + 1) }".

Definition GET_request : HTTPRequest :=
  {| method := GET; body_argument := fun _ => None |}.

Definition POST_request (rho1 : string) : HTTPRequest :=
  {| method := POST;
     body_argument := fun name => if String.eqb name "rho1" then Some rho1 else None |}.

Definition blocking_loop : IOLoopT := {| start_returns := fun _ => false |}.
Definition stopped_loop : IOLoopT := {| start_returns := fun _ => true |}.

(** A node whose store is empty. *)
Definition repl_nil : ReplStub :=
  {| Run := fun _ _ => inr {| output := "Nil" |};
     Eval := fun _ _ => inr {| output := "Nil" |} |}.

(** Channels to a node that cannot be reached. *)
Definition channel_down (t : string) : Channel :=
  {| target := t;
     rnode_pb2_grpc_ReplStub := repl_down;
     rnode_pb2_grpc_DiagnosticsStub := diag_down |}.

End Sample.

(** ** Python built-ins: properties *)

Lemma contains_In (x : string) (l : list string) :
  Py.contains x l = true <-> In x l.
Proof.
  unfold Py.contains. rewrite existsb_exists. split.
  - intros [y [Hy Heq]]. apply String.eqb_eq in Heq. now subst.
  - intros Hin. exists x. split; [assumption | apply String.eqb_refl].
Qed.

Lemma contains_not_In (x : string) (l : list string) :
  Py.contains x l = false <-> ~ In x l.
Proof.
  rewrite <- contains_In. destruct (Py.contains x l); split; congruence.
Qed.

Lemma getitem_nonneg {A : Type} (l : list A) (i : nat) :
  Py.getitem l (Z.of_nat i) = nth_error l i.
Proof.
  unfold Py.getitem.
  destruct (Z.ltb_spec (Z.of_nat i) 0) as [Hneg | _]; [lia |].
  destruct (Z.ltb_spec (Z.of_nat i) 0) as [Hneg | _]; [lia |].
  now rewrite Nat2Z.id.
Qed.

Lemma nth_error_last {A : Type} (l : list A) (d : A) :
  l <> [] -> nth_error l (List.length l - 1) = Some (last l d).
Proof.
  induction l as [| a [| b l'] IH]; intros Hne.
  - congruence.
  - reflexivity.
  - change (last (a :: b :: l') d) with (last (b :: l') d).
    rewrite <- IH by discriminate.
    cbn [List.length]. replace (S (S (List.length l')) - 1) with (S (S (List.length l') - 1)) by lia.
    reflexivity.
Qed.

(** [l[-1]] is the last element of a non-empty list. *)
Lemma getitem_minus_one {A : Type} (l : list A) (d : A) :
  l <> [] -> Py.getitem l (-1) = Some (last l d).
Proof.
  intros Hne. unfold Py.getitem.
  assert (Hlen : 0 < List.length l) by (destruct l; [congruence | cbn; lia]).
  change (-1 <? 0)%Z with true. cbv iota.
  destruct (Z.ltb_spec (-1 + Z.of_nat (List.length l)) 0) as [Hneg | _]; [lia |].
  replace (Z.to_nat (-1 + Z.of_nat (List.length l))) with (List.length l - 1) by lia.
  now apply nth_error_last.
Qed.

Lemma split_from_nonempty (sep : string) (s : string) :
  forall skip, Py.split_from sep skip s <> [].
Proof.
  induction s as [| c s' IH]; intros skip; cbn [Py.split_from].
  - discriminate.
  - destruct skip; [| apply IH].
    destruct (String.prefix sep (String c s')); [discriminate |].
    destruct (Py.split_from sep 0 s'); discriminate.
Qed.

Lemma join_cons_nonempty (sep p : string) (ps : list string) :
  ps <> [] -> Py.join sep (p :: ps) = p ++ sep ++ Py.join sep ps.
Proof. destruct ps; [congruence | reflexivity]. Qed.

Lemma append_assoc (a b c : string) : (a ++ b) ++ c = a ++ (b ++ c).
Proof. induction a as [| x a IH]; cbn; [reflexivity | now rewrite IH]. Qed.

Lemma append_nil_r (a : string) : a ++ EmptyString = a.
Proof. induction a as [| x a IH]; cbn; [reflexivity | now rewrite IH]. Qed.

(** Replacing is splitting on [old] and joining the pieces with [new]. *)
Lemma replace_from_join_split (old new s : string) :
  forall skip,
    Py.replace_from old new skip s = Py.join new (Py.split_from old skip s).
Proof.
  induction s as [| c s' IH]; intros skip.
  - reflexivity.
  - cbn [Py.replace_from Py.split_from]. destruct skip as [| k]; [| apply IH].
    destruct (String.prefix old (String c s')).
    + rewrite join_cons_nonempty by apply split_from_nonempty.
      now rewrite IH.
    + rewrite IH.
      pose proof (split_from_nonempty old s' 0) as Hne.
      destruct (Py.split_from old 0 s') as [| p ps]; [congruence |].
      destruct ps; reflexivity.
Qed.


Lemma rpc_calls_app (t1 t2 : Trace) :
  rpc_calls (t1 ++ t2)%list = (rpc_calls t1 ++ rpc_calls t2)%list.
Proof.
  induction t1 as [| [ | | | c] t1 IH]; cbn; [reflexivity | | | |]; now rewrite ?IH.
Qed.

Lemma stdout_text_app (t1 t2 : Trace) :
  stdout_text (t1 ++ t2)%list = stdout_text t1 ++ stdout_text t2.
Proof.
  induction t1 as [| [ | s | | ] t1 IH]; cbn; [reflexivity | | | |];
    rewrite ?IH, ?append_assoc; reflexivity.
Qed.

Lemma count_lines_app (a b : string) :
  count_lines (a ++ b) = count_lines a + count_lines b.
Proof. induction a as [| c a IH]; cbn; [reflexivity | rewrite IH; lia]. Qed.

Lemma split_markup : Py.split PART markup = Some [mtop1; mform2; mf3; m4].
Proof. vm_compute. reflexivity. Qed.

(** ** The handler, run step by step *)

Opaque mtop1 mform2 mf3 m4.

(** Unfold the monad's operations and the handler's primitives, leaving
    strings alone. *)
Ltac run_M :=
  repeat (unfold bind, ret, raise, Monad_M, MonadExc_M, M_bind, M_ret, M_raise,
            write, self_, world, rpc, emit, print, set_rholang_code,
            set_rspace_contents, get_body_argument;
          cbv beta iota; cbn [fst snd]).

Section Properties.

Context {Peer : Type} `{Str Peer}.

Implicit Types (self : @RNodeUI Peer) (t : Trace) (app : @Application Peer).

Lemma set_write_buffer_same self :
  set_write_buffer self (_write_buffer (base self)) = self.
Proof. now destruct self as [[req buf] d r c k]. Qed.

Lemma for_each_write (ps : list Peer) :
  forall self t,
    for_each ps (fun peer => write ("<li>" ++ str peer ++ "</li>")) (self, t)
    = (Returns tt,
       (set_write_buffer self (_write_buffer (base self) ++ map li ps)%list, t)).
Proof.
  induction ps as [| p ps IH]; intros self t.
  - cbn. now rewrite app_nil_r, set_write_buffer_same.
  - cbn [for_each bind Monad_M M_bind write fst snd].
    rewrite IH. cbn. now rewrite <- app_assoc.
Qed.

(** [get], whichever way [ListPeers] answers. *)
Lemma get_run self t :
  get (self, t)
  = let req := Build_ListPeersRequest in
    let t' := (t ++ [Rpc (CallListPeers req)])%list in
    let buf := _write_buffer (base self) in
    match ListPeers (__diagCh self) req t with
    | inr r =>
        (Returns tt,
         (set_write_buffer self
            (buf ++ page_chunks (peers r) (rholang_code self) (rspace_contents self))%list,
          t'))
    | inl e => (Raises e, (set_write_buffer self (buf ++ [mtop1])%list, t'))
    end.
Proof.
  unfold get. rewrite split_markup. run_M.
  cbn [set_write_buffer __diagCh].
  destruct (ListPeers (__diagCh self) Build_ListPeersRequest t) as [e | r].
  - reflexivity.
  - run_M. rewrite for_each_write. run_M. cbn.
    unfold page_chunks. rewrite <- !app_assoc. reflexivity.
Qed.

(** [post], whichever way the field lookup and [Run] go. *)
Lemma post_run self t :
  post (self, t)
  = match body_argument (request (base self)) "rho1" with
    | None => (Raises (MissingArgumentError "rho1"), (self, t))
    | Some line =>
        let req := {| line := line |} in
        let t' := (t ++ [Rpc (CallRun req)])%list in
        match Run (__replCh self) req t with
        | inl e => (Raises e, (with_rholang_code self line, t'))
        | inr r =>
            get (with_rspace_contents (with_rholang_code self line)
                   (Py.replace " | " (" |" ++ Py.LF) (output r)), t')
        end
    end.
Proof.
  unfold post. run_M.
  destruct (body_argument (request (base self)) "rho1") as [line |]; run_M;
    [| reflexivity].
  cbn [with_rholang_code __replCh].
  destruct (Run (__replCh self) {| line := line |} t) as [e | r]; reflexivity.
Qed.

Lemma serve_GET app req t :
  method req = GET ->
  serve app req t
  = let rq := Build_ListPeersRequest in
    let t' := (t ++ [Rpc (CallListPeers rq)])%list in
    match ListPeers (kw_diagCh app) rq t with
    | inr r => (Returns (Rendered (page (peers r) EmptyString EmptyString)), t')
    | inl e => (Returns (Failed e), t')
    end.
Proof.
  intros Hm. unfold serve, respond. rewrite Hm, get_run. cbv zeta.
  cbn [initialize __diagCh base _write_buffer rholang_code rspace_contents List.app].
  destruct (ListPeers (kw_diagCh app) Build_ListPeersRequest t) as [e | r];
    reflexivity.
Qed.

Lemma serve_POST app req t :
  method req = POST ->
  serve app req t
  = match body_argument req "rho1" with
    | None => (Returns (Failed (MissingArgumentError "rho1")), t)
    | Some line =>
        let rq := {| line := line |} in
        let t1 := (t ++ [Rpc (CallRun rq)])%list in
        match Run (kw_replCh app) rq t with
        | inl e => (Returns (Failed e), t1)
        | inr r =>
            let lp := Build_ListPeersRequest in
            let t2 := (t1 ++ [Rpc (CallListPeers lp)])%list in
            match ListPeers (kw_diagCh app) lp t1 with
            | inl e => (Returns (Failed e), t2)
            | inr ps =>
                (Returns
                   (Rendered
                      (page (peers ps) line
                         (Py.replace " | " (" |" ++ Py.LF) (output r)))),
                 t2)
            end
        end
    end.
Proof.
  intros Hm. unfold serve, respond. rewrite Hm, post_run.
  cbn [initialize __replCh base request].
  destruct (body_argument req "rho1") as [line |]; [| reflexivity].
  cbv zeta.
  destruct (Run (kw_replCh app) {| line := line |} t) as [e | r]; [reflexivity |].
  rewrite get_run. cbv zeta.
  cbn [with_rspace_contents with_rholang_code initialize __diagCh base
       _write_buffer rholang_code rspace_contents List.app].
  destruct (ListPeers (kw_diagCh app) Build_ListPeersRequest
              (t ++ [Rpc (CallRun {| line := line |})])%list) as [e | ps];
    reflexivity.
Qed.

(** ** [main], branch by branch *)

Section Main.

Variables (argv : list string) (IOLoop : IOLoopT)
          (insecure_channel : string -> @Channel Peer)
          (web_port : Z) (host : string) (port : Z).

Let channel : Channel := insecure_channel (host ++ ":" ++ Py.str port).
Let replCh : ReplStub := rnode_pb2_grpc_ReplStub channel.
Let run_main : M Trace unit := main argv IOLoop insecure_channel web_port host port.

Lemma main_ui t :
  In "-w" argv ->
  run_main t
  = let t' := (t ++ [Listen web_port; Stdout (url_line web_port); LoopStart])%list in
    (if start_returns IOLoop t' then Raises (UnboundLocalError "output") else Blocks,
     t').
Proof.
  intros Hw. apply contains_In in Hw.
  unfold run_main, main. rewrite Hw. unfold make_app, IOLoop_current_start. run_M.
  cbn [snd]. rewrite <- !app_assoc. cbn [app].
  unfold url_line, str, Str_string, Str_Z.
  change ("rnode web UI at " ++ "http://0.0.0.0:" ++ Py.str web_port)
    with ("rnode web UI at http://0.0.0.0:" ++ Py.str web_port).
  rewrite append_assoc.
  destruct (start_returns IOLoop _); reflexivity.
Qed.

Lemma main_inline t :
  ~ In "-w" argv -> In "-c" argv ->
  run_main t
  = let req := {| line := last argv EmptyString |} in
    let t' := (t ++ [Rpc (CallRun req)])%list in
    match Run replCh req t with
    | inr r => (Returns tt, (t' ++ [Stdout (output r ++ Py.LF)])%list)
    | inl e => (Raises e, t')
    end.
Proof.
  intros Hw Hc. apply contains_not_In in Hw.
  assert (Hne : argv <> []) by (intros ->; exact Hc).
  apply contains_In in Hc.
  unfold run_main, main. rewrite Hw, Hc. unfold index.
  rewrite (getitem_minus_one argv EmptyString Hne). run_M.
  unfold replCh, channel.
  change (str host) with host. change (str port) with (Py.str port).
  destruct (Run _ _ t) as [e | r]; reflexivity.
Qed.

Lemma main_file t :
  ~ In "-w" argv -> ~ In "-c" argv ->
  run_main t
  = match nth_error argv 1 with
    | None => (Raises IndexError, t)
    | Some path =>
        let req := {| fileName := path |} in
        let t' := (t ++ [Rpc (CallEval req)])%list in
        match Eval replCh req t with
        | inr r => (Returns tt, (t' ++ [Stdout (output r ++ Py.LF)])%list)
        | inl e => (Raises e, t')
        end
    end.
Proof.
  intros Hw Hc. apply contains_not_In in Hw. apply contains_not_In in Hc.
  unfold run_main, main. rewrite Hw, Hc. unfold index.
  change (Py.getitem argv 1) with (Py.getitem argv (Z.of_nat 1)).
  rewrite (getitem_nonneg argv 1).
  destruct (nth_error argv 1) as [path |]; run_M; [| reflexivity].
  unfold replCh, channel.
  change (str host) with host. change (str port) with (Py.str port).
  destruct (Eval _ _ t) as [e | r]; reflexivity.
Qed.

End Main.

End Properties.

(** ** The command dispatcher: claims about [main] *)

(** C5.  Mode selection is first-match: with [-w] anywhere in the argument
    sequence [main] runs the web UI (it listens, prints the URL and starts
    the run loop, whatever other flags are present); otherwise with [-c]
    it submits inline code through [Run]; otherwise it evaluates a file
    through [Eval] (or fails on the missing path). *)
Theorem main_mode_selection {Peer : Type} (argv : list string) (IOLoop : IOLoopT)
    (insecure_channel : string -> @Channel Peer)
    (web_port : Z) (host : string) (port : Z) (t : Trace) :
  let replCh := rnode_pb2_grpc_ReplStub (insecure_channel (host ++ ":" ++ Py.str port)) in
  main argv IOLoop insecure_channel web_port host port t
  = if in_dec string_dec "-w" argv then
      let t' := (t ++ [Listen web_port; Stdout (url_line web_port); LoopStart])%list in
      (if start_returns IOLoop t' then Raises (UnboundLocalError "output") else Blocks,
       t')
    else if in_dec string_dec "-c" argv then
      let req := {| line := last argv EmptyString |} in
      let t' := (t ++ [Rpc (CallRun req)])%list in
      match Run replCh req t with
      | inr r => (Returns tt, (t' ++ [Stdout (output r ++ Py.LF)])%list)
      | inl e => (Raises e, t')
      end
    else
      match nth_error argv 1 with
      | None => (Raises IndexError, t)
      | Some path =>
          let req := {| fileName := path |} in
          let t' := (t ++ [Rpc (CallEval req)])%list in
          match Eval replCh req t with
          | inr r => (Returns tt, (t' ++ [Stdout (output r ++ Py.LF)])%list)
          | inl e => (Raises e, t')
          end
      end.
Proof.
  intros replCh.
  destruct (in_dec string_dec "-w" argv) as [Hw | Hw].
  - now apply main_ui.
  - destruct (in_dec string_dec "-c" argv) as [Hc | Hc].
    + now apply main_inline.
    + now apply main_file.
Qed.

(** C4.  With [-c] and without [-w] in the argument sequence, the one gRPC
    call [main] makes is [Run] with [CmdRequest.line] the last element of
    the sequence, wherever [-c] stands and whatever follows it. *)
Theorem inline_code_is_last_argument {Peer : Type} (argv : list string)
    (IOLoop : IOLoopT) (insecure_channel : string -> @Channel Peer)
    (web_port : Z) (host : string) (port : Z) (t : Trace) :
  In "-c" argv -> ~ In "-w" argv ->
  rpc_calls (snd (main argv IOLoop insecure_channel web_port host port t))
  = (rpc_calls t ++ [CallRun {| line := last argv EmptyString |}])%list.
Proof.
  intros Hc Hw. rewrite (main_inline _ _ _ _ _ _ _ Hw Hc). cbv zeta.
  destruct (Run _ _ t) as [e | r]; cbn [snd];
    rewrite ?rpc_calls_app; cbn [rpc_calls]; now rewrite ?app_nil_r.
Qed.

Lemma inline_code_is_last_argument_witness :
  rpc_calls (snd (main_default ["prog"; "-c"; "foo"; Sample.code]
                    Sample.stopped_loop Sample.insecure_channel []))
  = [CallRun {| line := Sample.code |}].
Proof.
  apply (inline_code_is_last_argument (Peer := string)
           ["prog"; "-c"; "foo"; Sample.code] Sample.stopped_loop
           Sample.insecure_channel 8888 "127.0.0.1" 50000 []).
  - cbn. tauto.
  - cbn. intros [Hx | [Hx | [Hx | [Hx | []]]]]; discriminate.
Defined.

(** C7.  Without [-w], without [-c] and without a second element, [main]
    fails on [argv[1]] (Python's [IndexError], the program's usage error),
    before any gRPC call and before anything is printed. *)
Theorem file_mode_without_path_fails {Peer : Type} (argv : list string)
    (IOLoop : IOLoopT) (insecure_channel : string -> @Channel Peer)
    (web_port : Z) (host : string) (port : Z) (t : Trace) :
  ~ In "-w" argv -> ~ In "-c" argv -> List.length argv < 2 ->
  main argv IOLoop insecure_channel web_port host port t = (Raises IndexError, t).
Proof.
  intros Hw Hc Hlen. rewrite (main_file _ _ _ _ _ _ _ Hw Hc).
  assert (Hnone : nth_error argv 1 = None) by (apply nth_error_None; lia).
  now rewrite Hnone.
Qed.

Lemma file_mode_without_path_fails_witness :
  main_default ["prog"] Sample.stopped_loop Sample.insecure_channel []
  = (Raises IndexError, []).
Proof.
  apply (file_mode_without_path_fails (Peer := string) ["prog"]
           Sample.stopped_loop Sample.insecure_channel 8888 "127.0.0.1" 50000 []).
  - cbn. intros [Hx | []]; discriminate.
  - cbn. intros [Hx | []]; discriminate.
  - cbn. lia.
Defined.

(** C10.  In UI mode the final [print(output)] is reached only if the run
    loop's [start()] returns; [output] is not bound in that branch, so
    [main] then raises [UnboundLocalError], and it raises nothing exactly
    when the loop keeps blocking.  Either way the URL line is all that was
    printed. *)
Theorem ui_mode_final_print {Peer : Type} (argv : list string)
    (IOLoop : IOLoopT) (insecure_channel : string -> @Channel Peer)
    (web_port : Z) (host : string) (port : Z) (t : Trace) :
  In "-w" argv ->
  let t' := (t ++ [Listen web_port; Stdout (url_line web_port); LoopStart])%list in
  let r := main argv IOLoop insecure_channel web_port host port t in
  snd r = t' /\
  (start_returns IOLoop t' = true -> fst r = Raises (UnboundLocalError "output")) /\
  (start_returns IOLoop t' = false -> fst r = Blocks) /\
  (fst r = Raises (UnboundLocalError "output") <-> start_returns IOLoop t' = true).
Proof.
  intros Hw t' r. subst r. rewrite (main_ui _ _ _ _ _ _ _ Hw). cbv zeta.
  fold t'. cbn [fst snd].
  destruct (start_returns IOLoop t'); repeat split; intros; congruence.
Qed.

Lemma ui_mode_final_print_witness :
  main_default ["prog"; "-w"] Sample.stopped_loop Sample.insecure_channel []
  = (Raises (UnboundLocalError "output"),
     [Listen 8888; Stdout (url_line 8888); LoopStart])
  /\ fst (main_default ["prog"; "-w"] Sample.blocking_loop Sample.insecure_channel [])
     = Blocks.
Proof.
  assert (Hw : In "-w" ["prog"; "-w"]) by (cbn; tauto).
  pose proof (ui_mode_final_print (Peer := string) ["prog"; "-w"]
                Sample.stopped_loop Sample.insecure_channel 8888 "127.0.0.1" 50000
                [] Hw) as [Ht [Hret _]].
  pose proof (ui_mode_final_print (Peer := string) ["prog"; "-w"]
                Sample.blocking_loop Sample.insecure_channel 8888 "127.0.0.1" 50000
                [] Hw) as [_ [_ [Hblock _]]].
  split.
  - unfold main_default. apply injective_projections; [apply Hret | apply Ht];
      reflexivity.
  - apply Hblock. reflexivity.
Defined.

(** C8, as stated, fails in modes 2 and 3: what is printed is the
    response's [output] field, and that text may itself hold line breaks
    (the module's docstring shows such an output).  Here the node answers
    [Eval] with a two-line text and two lines reach the output sink. *)
Lemma file_mode_prints_two_lines :
  let r := main_default ["prog"; "contract1.rho"]
             Sample.stopped_loop Sample.insecure_channel [] in
  fst r = Returns tt /\
  stdout_text (snd r) = "Storage Contents:" ++ Py.LF ++ " Nil" ++ Py.LF /\
  count_lines (stdout_text (snd r)) = 2 /\
  count_lines (stdout_text (snd r)) <> 1.
Proof. vm_compute. repeat split. discriminate. Qed.

(** C8, amended.  For [['prog', '-w']] and web port 8888 the output sink
    receives exactly the line ["rnode web UI at http://0.0.0.0:8888"],
    once, before the run loop starts.  In modes 2 and 3 a successful run
    makes one gRPC call and one [print]: the sink receives the response's
    [output] field followed by one line break, which is one line more than
    [output] itself holds. *)
Theorem main_printed_text {Peer : Type} (IOLoop : IOLoopT)
    (insecure_channel : string -> @Channel Peer) (host : string) (port : Z) :
  (let r := main ["prog"; "-w"] IOLoop insecure_channel 8888 host port [] in
   snd r = [Listen 8888;
            Stdout ("rnode web UI at http://0.0.0.0:8888" ++ Py.LF);
            LoopStart] /\
   stdout_text (snd r) = "rnode web UI at http://0.0.0.0:8888" ++ Py.LF /\
   count_lines (stdout_text (snd r)) = 1)
  /\
  (forall (argv : list string) (web_port : Z) (t t' : Trace),
      ~ In "-w" argv ->
      main argv IOLoop insecure_channel web_port host port t = (Returns tt, t') ->
      let replCh :=
        rnode_pb2_grpc_ReplStub (insecure_channel (host ++ ":" ++ Py.str port)) in
      exists (call : RpcCall) (r : ReplResponse),
        t' = (t ++ [Rpc call; Stdout (output r ++ Py.LF)])%list /\
        ((exists req, call = CallRun req /\ Run replCh req t = inr r) \/
         (exists req, call = CallEval req /\ Eval replCh req t = inr r)) /\
        count_lines (output r ++ Py.LF) = count_lines (output r) + 1).
Proof.
  split.
  - assert (Hw : In "-w" ["prog"; "-w"]) by (cbn; tauto).
    rewrite (main_ui _ _ _ _ _ _ _ Hw). cbv zeta. cbn [snd].
    repeat split.
  - intros argv web_port t t' Hw Hrun replCh.
    assert (Hline : forall s, count_lines (s ++ Py.LF) = count_lines s + 1)
      by (intros s; now rewrite count_lines_app).
    destruct (in_dec string_dec "-c" argv) as [Hc | Hc].
    + rewrite (main_inline _ _ _ _ _ _ _ Hw Hc) in Hrun. cbv zeta in Hrun.
      fold replCh in Hrun.
      destruct (Run replCh _ t) as [e | r] eqn:Hans; [discriminate |].
      injection Hrun as <-. eexists _, r. rewrite <- app_assoc.
      split; [reflexivity |]. split; [| apply Hline].
      left. eexists. split; [reflexivity | exact Hans].
    + rewrite (main_file _ _ _ _ _ _ _ Hw Hc) in Hrun.
      destruct (nth_error argv 1) as [path |]; [| discriminate].
      cbv zeta in Hrun. fold replCh in Hrun.
      destruct (Eval replCh _ t) as [e | r] eqn:Hans; [discriminate |].
      injection Hrun as <-. eexists _, r. rewrite <- app_assoc.
      split; [reflexivity |]. split; [| apply Hline].
      right. eexists. split; [reflexivity | exact Hans].
Qed.

Lemma main_printed_text_witness :
  exists (call : RpcCall) (r : ReplResponse),
    [Rpc (CallRun {| line := Sample.code |}); Stdout (Sample.out ++ Py.LF)]
    = [Rpc call; Stdout (output r ++ Py.LF)] /\
    ((exists req, call = CallRun req /\ Run Sample.repl req [] = inr r) \/
     (exists req, call = CallEval req /\ Eval Sample.repl req [] = inr r)) /\
    count_lines (output r ++ Py.LF) = count_lines (output r) + 1.
Proof.
  apply (proj2 (main_printed_text (Peer := string) Sample.stopped_loop
                  Sample.insecure_channel "127.0.0.1" 50000%Z)
           ["prog"; "-c"; Sample.code] 8888%Z []).
  - cbn. intros [Hx | [Hx | [Hx | []]]]; discriminate.
  - reflexivity.
Defined.

(** ** The UI server: claims about [RNodeUI] *)

(** C1, as stated, fails: the two strings are attributes of the handler
    object, and a handler object serves one request; [initialize] sets
    both to the empty string for the next one.  A [GET] right after a
    successful [POST] renders both insertion points empty, not the code
    and the store contents of that [POST]. *)
Lemma get_after_post_renders_empty_strings :
  let ps := ["10.0.0.1:30304"; "10.0.0.2:30304"] in
  serve_all Sample.app [Sample.POST_request Sample.code; Sample.GET_request] []
  = (Returns [Rendered (page ps Sample.code Sample.stored);
              Rendered (page ps EmptyString EmptyString)],
     [Rpc (CallRun {| line := Sample.code |});
      Rpc (CallListPeers Build_ListPeersRequest);
      Rpc (CallListPeers Build_ListPeersRequest)])
  /\ page ps EmptyString EmptyString <> page ps Sample.code Sample.stored.
Proof.
  split.
  - vm_compute. reflexivity.
  - apply String.eqb_neq. vm_compute. reflexivity.
Qed.

(** C1, amended.  The response to a successful [POST] is the page with
    exactly the submitted code and the transformed output of that [POST];
    the strings last as long as the handler object, that is for this one
    request, and a [GET] that follows renders both empty. *)
Theorem post_then_get_pages {Peer : Type} `{Str Peer} (app : @Application Peer)
    (post_req get_req : HTTPRequest) (code : string) (r : ReplResponse)
    (ps1 ps2 : Peers Peer) (t : Trace) :
  method post_req = POST -> body_argument post_req "rho1" = Some code ->
  method get_req = GET ->
  let lp := Build_ListPeersRequest in
  let t1 := (t ++ [Rpc (CallRun {| line := code |})])%list in
  let t2 := (t1 ++ [Rpc (CallListPeers lp)])%list in
  Run (kw_replCh app) {| line := code |} t = inr r ->
  ListPeers (kw_diagCh app) lp t1 = inr ps1 ->
  ListPeers (kw_diagCh app) lp t2 = inr ps2 ->
  serve_all app [post_req; get_req] t
  = (Returns
       [Rendered (page (peers ps1) code
                    (Py.replace " | " (" |" ++ Py.LF) (output r)));
        Rendered (page (peers ps2) EmptyString EmptyString)],
     (t2 ++ [Rpc (CallListPeers lp)])%list).
Proof.
  intros Hpost Hcode Hget lp t1 t2 Hrun Hlp1 Hlp2.
  cbn [serve_all]. run_M.
  rewrite (serve_POST app post_req t Hpost), Hcode. cbv zeta.
  rewrite Hrun. fold t1. fold lp. rewrite Hlp1. fold t2.
  rewrite (serve_GET app get_req t2 Hget). cbv zeta. fold lp.
  rewrite Hlp2. reflexivity.
Qed.

Lemma post_then_get_pages_witness :
  serve_all Sample.app [Sample.POST_request Sample.code; Sample.GET_request] []
  = (Returns
       [Rendered (page ["10.0.0.1:30304"; "10.0.0.2:30304"] Sample.code
                    (Py.replace " | " (" |" ++ Py.LF) Sample.out));
        Rendered (page ["10.0.0.1:30304"; "10.0.0.2:30304"] EmptyString EmptyString)],
     [Rpc (CallRun {| line := Sample.code |});
      Rpc (CallListPeers Build_ListPeersRequest);
      Rpc (CallListPeers Build_ListPeersRequest)]).
Proof.
  apply (post_then_get_pages Sample.app (Sample.POST_request Sample.code)
           Sample.GET_request Sample.code {| output := Sample.out |}
           {| peers := ["10.0.0.1:30304"; "10.0.0.2:30304"] |}
           {| peers := ["10.0.0.1:30304"; "10.0.0.2:30304"] |} []);
    reflexivity.
Defined.

(** C2.  When [ListPeers] fails during a [GET], no page is rendered: the
    response carries none of the handler's output (the template's first
    part, which [get] had buffered before the call, is dropped with the
    buffer, see [get_run]) and is the error response for the failure of
    the call. *)
Theorem get_request_ListPeers_failure {Peer : Type} `{Str Peer}
    (app : @Application Peer) (req : HTTPRequest) (t : Trace) (e : exn) :
  method req = GET ->
  ListPeers (kw_diagCh app) Build_ListPeersRequest t = inl e ->
  serve app req t
  = (Returns (Failed e), (t ++ [Rpc (CallListPeers Build_ListPeersRequest)])%list).
Proof.
  intros Hget Hfail. rewrite (serve_GET app req t Hget). cbv zeta.
  now rewrite Hfail.
Qed.

Lemma get_request_ListPeers_failure_witness :
  serve Sample.app_no_diag Sample.GET_request []
  = (Returns (Failed Sample.unavailable),
     [Rpc (CallListPeers Build_ListPeersRequest)]).
Proof.
  apply (get_request_ListPeers_failure Sample.app_no_diag Sample.GET_request []
           Sample.unavailable); reflexivity.
Defined.

(** C3.  When [Run] fails during a [POST], the handler's [rholang_code]
    already holds the submitted code, [rspace_contents] still has the
    value it had before the [POST], nothing was written, and the client
    gets the error response for the failure. *)
Theorem post_Run_failure {Peer : Type} `{Str Peer} (self : @RNodeUI Peer)
    (t : Trace) (code : string) (e : exn) :
  body_argument (request (base self)) "rho1" = Some code ->
  Run (__replCh self) {| line := code |} t = inl e ->
  let t' := (t ++ [Rpc (CallRun {| line := code |})])%list in
  exists self' : RNodeUI,
    post (self, t) = (Raises e, (self', t')) /\
    rholang_code self' = code /\
    rspace_contents self' = rspace_contents self /\
    _write_buffer (base self') = _write_buffer (base self) /\
    respond (post (self, t)) = (Returns (Failed e), t').
Proof.
  intros Hcode Hfail t'. exists (with_rholang_code self code).
  rewrite post_run, Hcode. cbv zeta. rewrite Hfail. fold t'.
  repeat split.
Qed.

Lemma post_Run_failure_witness :
  let self :=
    with_rspace_contents
      (initialize {| request := Sample.POST_request Sample.code; _write_buffer := [] |}
                  Sample.diag Sample.repl_down)
      "earlier contents" in
  exists self' : RNodeUI,
    post (self, []) = (Raises Sample.unavailable,
                       (self', [Rpc (CallRun {| line := Sample.code |})])) /\
    rholang_code self' = Sample.code /\
    rspace_contents self' = "earlier contents" /\
    _write_buffer (base self') = [] /\
    respond (post (self, []))
    = (Returns (Failed Sample.unavailable), [Rpc (CallRun {| line := Sample.code |})]).
Proof.
  intros self.
  apply (post_Run_failure self [] Sample.code Sample.unavailable); reflexivity.
Defined.

(** C6.  Whatever [Run] returns as [output] during a [POST], the value
    stored in [rspace_contents] is that string with every [" | "] replaced
    by [" |"] and a line feed, that is the pieces between the occurrences
    of [" | "] joined by [" |"] and a line feed; in particular
    ["@{x}!(2) | for(...) { Nil } | for(...) { Nil }"] is stored with a
    line break after each of its two bars. *)
Theorem post_stores_transformed_output {Peer : Type} `{Str Peer}
    (self : @RNodeUI Peer) (t : Trace) (code : string) (r : ReplResponse) :
  body_argument (request (base self)) "rho1" = Some code ->
  Run (__replCh self) {| line := code |} t = inr r ->
  let stored := rspace_contents (fst (snd (post (self, t)))) in
  stored = Py.replace " | " (" |" ++ Py.LF) (output r) /\
  stored = Py.join (" |" ++ Py.LF) (Py.split_from " | " 0 (output r)) /\
  (output r = "@{x}!(2) | for(...) { Nil } | for(...) { Nil }" ->
   stored = "@{x}!(2) |" ++ Py.LF ++ "for(...) { Nil } |" ++ Py.LF ++ "for(...) { Nil }").
Proof.
  intros Hcode Hrun stored.
  assert (Hstored : stored = Py.replace " | " (" |" ++ Py.LF) (output r)).
  { subst stored. rewrite post_run, Hcode. cbv zeta. rewrite Hrun, get_run.
    cbv zeta. destruct (ListPeers _ _ _); reflexivity. }
  split; [exact Hstored |]. split.
  - rewrite Hstored. apply replace_from_join_split.
  - intros Hout. rewrite Hstored, Hout. vm_compute. reflexivity.
Qed.

Lemma post_stores_transformed_output_witness :
  rspace_contents
    (fst (snd (post (initialize {| request := Sample.POST_request Sample.code;
                                   _write_buffer := [] |}
                                Sample.diag Sample.repl, []))))
  = "@{x}!(2) |" ++ Py.LF ++ "for(...) { Nil } |" ++ Py.LF ++ "for(...) { Nil }".
Proof.
  apply (post_stores_transformed_output
           (initialize {| request := Sample.POST_request Sample.code;
                          _write_buffer := [] |} Sample.diag Sample.repl)
           [] Sample.code {| output := Sample.out |});
    reflexivity.
Defined.

(** C9.  A [POST] that succeeds has made exactly two gRPC calls, [Run] and
    then [ListPeers] (the handler re-renders through [get]), and its page
    shows the peers that [ListPeers] call returned.  When [Run] succeeds
    and [ListPeers] then fails, the [POST] is answered with the error
    response although both strings of the handler were already updated. *)
Theorem post_calls_Run_then_ListPeers {Peer : Type} `{Str Peer}
    (app : @Application Peer) (req : HTTPRequest) (t : Trace) :
  method req = POST ->
  let lp := Build_ListPeersRequest in
  (forall (body : string) (t' : Trace),
      serve app req t = (Returns (Rendered body), t') ->
      exists (code : string) (r : ReplResponse) (ps : Peers Peer),
        body_argument req "rho1" = Some code /\
        t' = (t ++ [Rpc (CallRun {| line := code |}); Rpc (CallListPeers lp)])%list /\
        Run (kw_replCh app) {| line := code |} t = inr r /\
        ListPeers (kw_diagCh app) lp (t ++ [Rpc (CallRun {| line := code |})])%list
        = inr ps /\
        body = page (peers ps) code (Py.replace " | " (" |" ++ Py.LF) (output r)))
  /\
  (forall (self : @RNodeUI Peer) (code : string) (r : ReplResponse) (e : exn),
      body_argument (request (base self)) "rho1" = Some code ->
      Run (__replCh self) {| line := code |} t = inr r ->
      ListPeers (__diagCh self) lp (t ++ [Rpc (CallRun {| line := code |})])%list
      = inl e ->
      let t' :=
        (t ++ [Rpc (CallRun {| line := code |}); Rpc (CallListPeers lp)])%list in
      exists self' : RNodeUI,
        post (self, t) = (Raises e, (self', t')) /\
        rholang_code self' = code /\
        rspace_contents self' = Py.replace " | " (" |" ++ Py.LF) (output r) /\
        respond (post (self, t)) = (Returns (Failed e), t')).
Proof.
  intros Hpost lp. split.
  - intros body t' Hserve. rewrite (serve_POST app req t Hpost) in Hserve.
    destruct (body_argument req "rho1") as [code |]; [| discriminate].
    cbv zeta in Hserve.
    destruct (Run (kw_replCh app) {| line := code |} t) as [e | r] eqn:Hrun;
      [discriminate |].
    fold lp in Hserve.
    destruct (ListPeers (kw_diagCh app) lp _) as [e | ps] eqn:Hlp; [discriminate |].
    injection Hserve as <- <-. exists code, r, ps.
    rewrite <- app_assoc. repeat split; assumption.
  - intros self code r e Hcode Hrun Hlp t'.
    eexists. rewrite post_run, Hcode. cbv zeta. rewrite Hrun, get_run. cbv zeta.
    cbn [with_rspace_contents with_rholang_code __diagCh].
    fold lp. rewrite Hlp. subst t'. rewrite <- app_assoc.
    repeat split.
Qed.

Lemma post_calls_Run_then_ListPeers_witness :
  (exists (code : string) (r : ReplResponse) (ps : Peers string),
      body_argument (Sample.POST_request Sample.code) "rho1" = Some code /\
      [Rpc (CallRun {| line := Sample.code |});
       Rpc (CallListPeers Build_ListPeersRequest)]
      = [Rpc (CallRun {| line := code |}); Rpc (CallListPeers Build_ListPeersRequest)] /\
      Run Sample.repl {| line := code |} [] = inr r /\
      ListPeers Sample.diag Build_ListPeersRequest [Rpc (CallRun {| line := code |})]
      = inr ps /\
      page ["10.0.0.1:30304"; "10.0.0.2:30304"] Sample.code Sample.stored
      = page (peers ps) code (Py.replace " | " (" |" ++ Py.LF) (output r)))
  /\
  (let self :=
     initialize {| request := Sample.POST_request Sample.code; _write_buffer := [] |}
                Sample.diag_down Sample.repl in
   exists self' : RNodeUI,
     post (self, [])
     = (Raises Sample.unavailable,
        (self', [Rpc (CallRun {| line := Sample.code |});
                 Rpc (CallListPeers Build_ListPeersRequest)])) /\
     rholang_code self' = Sample.code /\
     rspace_contents self' = Py.replace " | " (" |" ++ Py.LF) Sample.out /\
     respond (post (self, []))
     = (Returns (Failed Sample.unavailable),
        [Rpc (CallRun {| line := Sample.code |});
         Rpc (CallListPeers Build_ListPeersRequest)])).
Proof.
  pose proof (post_calls_Run_then_ListPeers Sample.app
                (Sample.POST_request Sample.code) [] eq_refl) as [Hok Hfail].
  split.
  - apply (Hok (page ["10.0.0.1:30304"; "10.0.0.2:30304"] Sample.code Sample.stored)).
    vm_compute. reflexivity.
  - intros self.
    apply (Hfail self Sample.code {| output := Sample.out |} Sample.unavailable);
      reflexivity.
Defined.

(** ** More on the built-ins: what [replace] and [split] keep *)

Lemma length_append (a b : string) :
  String.length (a ++ b) = String.length a + String.length b.
Proof. induction a as [| c a IH]; cbn; [reflexivity | now rewrite IH]. Qed.

Lemma prefix_length (a b : string) :
  String.prefix a b = true -> String.length a <= String.length b.
Proof.
  revert b. induction a as [| c a IH]; intros [| d b] Hp; cbn in *; try lia;
    try discriminate.
  destruct (ascii_dec c d); [| discriminate]. apply IH in Hp. lia.
Qed.

Lemma prefix_drop (a b : string) :
  String.prefix a b = true -> b = a ++ drop (String.length a) b.
Proof.
  revert b. induction a as [| c a IH]; intros [| d b] Hp; cbn in *;
    try reflexivity; try discriminate.
  destruct (ascii_dec c d) as [-> |]; [| discriminate].
  now rewrite <- (IH b Hp).
Qed.

(** With [new] as long as [old], replacing keeps the length. *)
Lemma replace_from_length (old new : string) :
  old <> EmptyString -> String.length new = String.length old ->
  forall (s : string) (k : nat),
    k <= String.length s ->
    String.length (Py.replace_from old new k s) = String.length s - k.
Proof.
  intros Hne Hlen. induction s as [| c s' IH]; intros k Hk.
  - cbn in *. lia.
  - cbn [Py.replace_from]. destruct k as [| k'].
    + destruct (String.prefix old (String c s')) eqn:Hp.
      * apply prefix_length in Hp. cbn [String.length] in Hp.
        rewrite length_append, IH by lia.
        assert (0 < String.length old) by (destruct old; [congruence | cbn; lia]).
        cbn [String.length]. lia.
      * cbn [String.length]. rewrite IH by lia. lia.
    + cbn [String.length] in *. rewrite IH by lia. lia.
Qed.

(** Where [old] does not occur, replacing changes nothing. *)
Lemma replace_from_no_occurrence (old new s : string) :
  occurs old s = false -> Py.replace_from old new 0 s = s.
Proof.
  induction s as [| c s' IH]; intros Hocc; [reflexivity |].
  cbn [occurs] in Hocc. apply orb_false_iff in Hocc as [Hp Hrest].
  cbn [Py.replace_from]. rewrite Hp. now rewrite IH.
Qed.

(** Replacing [old] by itself gives the string back. *)
Lemma replace_from_same (old : string) :
  old <> EmptyString ->
  forall (s : string) (k : nat), Py.replace_from old old k s = drop k s.
Proof.
  intros Hne. induction s as [| c s' IH]; intros k.
  - now destruct k.
  - cbn [Py.replace_from]. destruct k as [| k']; [| apply IH].
    destruct (String.prefix old (String c s')) eqn:Hp.
    + rewrite IH.
      transitivity (old ++ drop (String.length old) (String c s')).
      * destruct old as [| a old']; [congruence |].
        cbn [String.length drop].
        replace (S (String.length old') - 1) with (String.length old') by lia.
        reflexivity.
      * symmetry. now apply prefix_drop.
    + now rewrite IH.
Qed.

(** *** The line-break transform of [post] *)

(** A bar between two spaces is not left where one stood at the start. *)
Lemma transform_head (c : ascii) (s : string) :
  String.prefix " | " (String c s) = false ->
  String.prefix " | " (String c (Py.replace_from " | " (" |" ++ Py.LF) 0 s)) = false.
Proof.
  cbn [String.prefix].
  destruct (ascii_dec " " c) as [<- |]; [| reflexivity].
  destruct s as [| d s2]; [reflexivity |].
  cbn [Py.replace_from].
  destruct (String.prefix " | " (String d s2)) eqn:Hd; [reflexivity |].
  cbn [String.prefix].
  destruct (ascii_dec "|" d) as [<- |]; [| reflexivity].
  destruct s2 as [| e s3]; [reflexivity |].
  cbn [Py.replace_from String.prefix].
  destruct (ascii_dec " " e) as [<- | Hne]; [destruct s3; discriminate |].
  intros _. cbn [String.prefix].
  destruct (ascii_dec " " e); [congruence | reflexivity].
Qed.

(** After the transform no [" | "] is left, wherever the scan resumes. *)
Lemma transform_leaves_no_separator (s : string) :
  forall k : nat,
    occurs " | " (Py.replace_from " | " (" |" ++ Py.LF) k s) = false.
Proof.
  induction s as [| c s' IH]; intros k; [reflexivity |].
  cbn [Py.replace_from]. destruct k as [| k']; [| apply IH].
  destruct (String.prefix " | " (String c s')) eqn:Hp.
  - change (String.length " | " - 1) with 2.
    change ((" |" ++ Py.LF) ++ Py.replace_from " | " (" |" ++ Py.LF) 2 s')
      with (String " " (String "|" (String (ascii_of_nat 10)
              (Py.replace_from " | " (" |" ++ Py.LF) 2 s')))).
    cbn [occurs]. rewrite IH. reflexivity.
  - cbn [occurs]. rewrite IH, (transform_head c s' Hp). reflexivity.
Qed.

(** ** Further properties of [RNodeUI] *)



(** X1.  [get] reads the handler's attributes and never assigns them:
    whether it returns or raises, the request, both stubs and both strings
    are what they were, and the write buffer has only grown, by the
    template's first part and whatever followed. *)
Theorem get_keeps_handler_attributes {Peer : Type} `{Str Peer}
    (self : @RNodeUI Peer) (t : Trace) :
  let self' := fst (snd (get (self, t))) in
  rholang_code self' = rholang_code self /\
  rspace_contents self' = rspace_contents self /\
  __diagCh self' = __diagCh self /\
  __replCh self' = __replCh self /\
  request (base self') = request (base self) /\
  exists rest : list string,
    _write_buffer (base self') = (_write_buffer (base self) ++ mtop1 :: rest)%list.
Proof.
  cbv zeta. rewrite get_run. cbv zeta.
  destruct (ListPeers (__diagCh self) Build_ListPeersRequest t) as [e | r];
    cbn [fst snd set_write_buffer rholang_code rspace_contents __diagCh __replCh
         base request _write_buffer]; repeat split.
  - now exists [].
  - unfold page_chunks. eexists. reflexivity.
Qed.


(** X3.  A [POST] without the field [rho1] is rejected before anything
    else happens: [MissingArgumentError], no gRPC call, the handler and
    its buffer untouched, and the client gets the error response. *)
Theorem post_without_field {Peer : Type} `{Str Peer}
    (app : @Application Peer) (self : @RNodeUI Peer) (req : HTTPRequest) (t : Trace) :
  (body_argument (request (base self)) "rho1" = None ->
   post (self, t) = (Raises (MissingArgumentError "rho1"), (self, t))) /\
  (method req = POST -> body_argument req "rho1" = None ->
   serve app req t = (Returns (Failed (MissingArgumentError "rho1")), t)).
Proof.
  split.
  - intros Hnone. now rewrite post_run, Hnone.
  - intros Hpost Hnone. now rewrite (serve_POST app req t Hpost), Hnone.
Qed.

Lemma post_without_field_witness :
  post (initialize {| request := Sample.GET_request; _write_buffer := [] |}
                   Sample.diag Sample.repl, [])
  = (Raises (MissingArgumentError "rho1"),
     (initialize {| request := Sample.GET_request; _write_buffer := [] |}
                 Sample.diag Sample.repl, []))
  /\ serve Sample.app {| method := POST; body_argument := fun _ => None |} []
     = (Returns (Failed (MissingArgumentError "rho1")), []).
Proof.
  pose proof (post_without_field Sample.app
                (initialize {| request := Sample.GET_request; _write_buffer := [] |}
                            Sample.diag Sample.repl)
                {| method := POST; body_argument := fun _ => None |} [])
    as [Hpost Hserve].
  split; [apply Hpost | apply Hserve]; reflexivity.
Defined.



(** ** Further properties of [main] *)

(** X5.  In modes 2 and 3 nothing is printed unless the gRPC call
    succeeded: when [main] does not return normally there, the output
    sink holds what it held before. *)
Theorem main_failure_prints_nothing {Peer : Type} (argv : list string)
    (IOLoop : IOLoopT) (insecure_channel : string -> @Channel Peer)
    (web_port : Z) (host : string) (port : Z) (t : Trace) :
  ~ In "-w" argv ->
  let r := main argv IOLoop insecure_channel web_port host port t in
  fst r <> Returns tt ->
  stdout_text (snd r) = stdout_text t.
Proof.
  intros Hw r Hfail. subst r.
  destruct (in_dec string_dec "-c" argv) as [Hc | Hc].
  - rewrite (main_inline _ _ _ _ _ _ _ Hw Hc) in *. cbv zeta in *.
    destruct (Run _ _ t) as [e | out]; cbn [fst snd] in *; [| congruence].
    rewrite stdout_text_app. cbn [stdout_text]. apply append_nil_r.
  - rewrite (main_file _ _ _ _ _ _ _ Hw Hc) in *.
    destruct (nth_error argv 1) as [path |]; [| reflexivity].
    cbv zeta in *.
    destruct (Eval _ _ t) as [e | out]; cbn [fst snd] in *; [| congruence].
    rewrite stdout_text_app. cbn [stdout_text]. apply append_nil_r.
Qed.

Lemma main_failure_prints_nothing_witness :
  stdout_text (snd (main_default ["prog"; "-c"; Sample.code]
                      Sample.stopped_loop Sample.channel_down []))
  = EmptyString.
Proof.
  apply (main_failure_prints_nothing (Peer := string) ["prog"; "-c"; Sample.code]
           Sample.stopped_loop Sample.channel_down 8888 "127.0.0.1" 50000 []).
  - cbn. intros [Hx | [Hx | [Hx | []]]]; discriminate.
  - cbn. discriminate.
Defined.


(** X7.  In file mode the path sent to [Eval] is the second element of
    the argument sequence; whatever follows it is ignored. *)
Theorem file_mode_evaluates_second_argument {Peer : Type}
    (prog path : string) (rest : list string)
    (IOLoop : IOLoopT) (insecure_channel : string -> @Channel Peer)
    (web_port : Z) (host : string) (port : Z) (t : Trace) :
  let argv := prog :: path :: rest in
  ~ In "-w" argv -> ~ In "-c" argv ->
  rpc_calls (snd (main argv IOLoop insecure_channel web_port host port t))
  = (rpc_calls t ++ [CallEval {| fileName := path |}])%list.
Proof.
  intros argv Hw Hc. rewrite (main_file _ _ _ _ _ _ _ Hw Hc).
  cbn [argv nth_error]. cbv zeta.
  destruct (Eval _ _ t) as [e | out]; cbn [snd];
    rewrite ?rpc_calls_app; cbn [rpc_calls]; now rewrite ?app_nil_r.
Qed.

Lemma file_mode_evaluates_second_argument_witness :
  rpc_calls (snd (main_default ["prog"; "contract1.rho"; "contract2.rho"]
                    Sample.stopped_loop Sample.insecure_channel []))
  = [CallEval {| fileName := "contract1.rho" |}].
Proof.
  apply (file_mode_evaluates_second_argument (Peer := string)
           "prog" "contract1.rho" ["contract2.rho"]
           Sample.stopped_loop Sample.insecure_channel 8888 "127.0.0.1" 50000 []).
  - cbn. intros [Hx | [Hx | [Hx | []]]]; discriminate.
  - cbn. intros [Hx | [Hx | [Hx | []]]]; discriminate.
Defined.

(** X8.  With the default host and port, the one channel [main] opens is
    the one to ["127.0.0.1:50000"]: two ways of opening channels that
    agree there give the same run. *)
Theorem main_default_channel {Peer : Type} (argv : list string)
    (IOLoop : IOLoopT) (ic1 ic2 : string -> @Channel Peer) (t : Trace) :
  ic1 "127.0.0.1:50000" = ic2 "127.0.0.1:50000" ->
  main_default argv IOLoop ic1 t = main_default argv IOLoop ic2 t.
Proof.
  intros Heq. unfold main_default, main.
  change (str "127.0.0.1" ++ ":" ++ str 50000%Z) with "127.0.0.1:50000".
  now rewrite Heq.
Qed.

Lemma main_default_channel_witness :
  main_default ["prog"; "-c"; Sample.code] Sample.stopped_loop Sample.insecure_channel []
  = main_default ["prog"; "-c"; Sample.code] Sample.stopped_loop
      (fun _ => Sample.insecure_channel "127.0.0.1:50000") [].
Proof.
  apply (main_default_channel (Peer := string) ["prog"; "-c"; Sample.code]
           Sample.stopped_loop Sample.insecure_channel
           (fun _ => Sample.insecure_channel "127.0.0.1:50000") []).
  reflexivity.
Defined.


(** ** The store contents a [POST] keeps *)

(** What [post] leaves in [rspace_contents] once [Run] has answered,
    whether or not the page is rendered afterwards. *)
Lemma post_stored {Peer : Type} `{Str Peer}
    (self : @RNodeUI Peer) (t : Trace) (code : string) (r : ReplResponse) :
  body_argument (request (base self)) "rho1" = Some code ->
  Run (__replCh self) {| line := code |} t = inr r ->
  rspace_contents (fst (snd (post (self, t))))
  = Py.replace_from " | " (" |" ++ Py.LF) 0 (output r).
Proof.
  intros Hcode Hrun. rewrite post_run, Hcode. cbv zeta. rewrite Hrun, get_run.
  cbv zeta. destruct (ListPeers _ _ _); reflexivity.
Qed.

(** X9.  The store contents kept by a [POST] hold no [" | "] any more:
    no bar is left between two spaces, also not where occurrences
    overlapped in the output of [Run]. *)
Theorem stored_contents_without_separator {Peer : Type} `{Str Peer}
    (self : @RNodeUI Peer) (t : Trace) (code : string) (r : ReplResponse) :
  body_argument (request (base self)) "rho1" = Some code ->
  Run (__replCh self) {| line := code |} t = inr r ->
  occurs " | " (rspace_contents (fst (snd (post (self, t))))) = false.
Proof.
  intros Hcode Hrun. rewrite (post_stored self t code r Hcode Hrun).
  apply transform_leaves_no_separator.
Qed.

Lemma stored_contents_without_separator_witness :
  occurs " | "
    (rspace_contents
       (fst (snd (post (initialize {| request := Sample.POST_request Sample.code;
                                      _write_buffer := [] |}
                                   Sample.diag Sample.repl, [])))))
  = false.
Proof.
  apply (stored_contents_without_separator
           (initialize {| request := Sample.POST_request Sample.code;
                          _write_buffer := [] |} Sample.diag Sample.repl)
           [] Sample.code {| output := Sample.out |});
    reflexivity.
Defined.

(** X10.  The transform trades a space for a line feed and nothing else:
    the store contents kept by a [POST] are exactly as long as the output
    of [Run]. *)
Theorem stored_contents_length {Peer : Type} `{Str Peer}
    (self : @RNodeUI Peer) (t : Trace) (code : string) (r : ReplResponse) :
  body_argument (request (base self)) "rho1" = Some code ->
  Run (__replCh self) {| line := code |} t = inr r ->
  String.length (rspace_contents (fst (snd (post (self, t)))))
  = String.length (output r).
Proof.
  intros Hcode Hrun. rewrite (post_stored self t code r Hcode Hrun).
  rewrite replace_from_length; [lia | discriminate | reflexivity | lia].
Qed.

Lemma stored_contents_length_witness :
  String.length
    (rspace_contents
       (fst (snd (post (initialize {| request := Sample.POST_request Sample.code;
                                      _write_buffer := [] |}
                                   Sample.diag Sample.repl, [])))))
  = String.length Sample.out.
Proof.
  apply (stored_contents_length
           (initialize {| request := Sample.POST_request Sample.code;
                          _write_buffer := [] |} Sample.diag Sample.repl)
           [] Sample.code {| output := Sample.out |});
    reflexivity.
Defined.

(** X11.  The store contents kept by a [POST] are the output of [Run]
    itself exactly when that output holds no [" | "]. *)
Theorem stored_contents_unchanged_iff {Peer : Type} `{Str Peer}
    (self : @RNodeUI Peer) (t : Trace) (code : string) (r : ReplResponse) :
  body_argument (request (base self)) "rho1" = Some code ->
  Run (__replCh self) {| line := code |} t = inr r ->
  rspace_contents (fst (snd (post (self, t)))) = output r
  <-> occurs " | " (output r) = false.
Proof.
  intros Hcode Hrun. rewrite (post_stored self t code r Hcode Hrun). split.
  - intros Heq. rewrite <- Heq. apply transform_leaves_no_separator.
  - apply replace_from_no_occurrence.
Qed.

Lemma stored_contents_unchanged_iff_witness :
  rspace_contents
    (fst (snd (post (initialize {| request := Sample.POST_request Sample.code;
                                   _write_buffer := [] |}
                                Sample.diag Sample.repl_nil, []))))
  = "Nil".
Proof.
  apply (stored_contents_unchanged_iff
           (initialize {| request := Sample.POST_request Sample.code;
                          _write_buffer := [] |} Sample.diag Sample.repl_nil)
           [] Sample.code {| output := "Nil" |});
    reflexivity.
Defined.

(** ** The template and the page *)

(** X12.  Splitting on a separator and joining the pieces with it gives
    the string back; an empty separator is refused. *)
Theorem split_join_round_trip (sep s : string) :
  (sep = EmptyString -> Py.split sep s = None) /\
  (sep <> EmptyString ->
   exists l, Py.split sep s = Some l /\ l <> [] /\ Py.join sep l = s).
Proof.
  split.
  - now intros ->.
  - intros Hne. exists (Py.split_from sep 0 s). repeat split.
    + destruct sep; [congruence | reflexivity].
    + apply split_from_nonempty.
    + rewrite <- replace_from_join_split.
      now rewrite (replace_from_same sep Hne s 0).
Qed.

Lemma split_join_round_trip_witness :
  exists l, Py.split PART markup = Some l /\ l <> [] /\ Py.join PART l = markup.
Proof.
  apply (proj2 (split_join_round_trip PART markup)). discriminate.
Defined.


(** ** Requests one after the other *)



